(** * Monitoring_for_ECO: the configuration module [config.py]

    A shallow embedding of [config.py] and of the part of the Python
    run time it calls ([pathlib.Path.mkdir], [os.mkdir], [str] and
    [repr] of the values it prints), followed by the properties of the
    configuration record the module builds when it is imported.

    Importing the module is the only "load" operation there is: the
    module body creates six directories below the directory of the
    module file and then binds some forty global names to literals. *)

From Corelib Require Import PrimFloat FloatOps SpecFloat.
From Stdlib Require Import ZArith.
From stdpp Require Import gmap strings list pretty.

Set Warnings "-register-all,-inexact-float".
Local Open Scope Z_scope.

(** ** Exceptions *)

(** The [OSError] subclasses that [os.mkdir] raises for the state of the
    name space: the target exists ([EEXIST]), a component of the parent
    is missing ([ENOENT]), a component of the parent is not a directory
    ([ENOTDIR]). *)
Inductive OSError : Type :=
  | FileExistsError
  | FileNotFoundError
  | NotADirectoryError.

(** A computation either returns a value or raises. *)
Inductive result (E A : Type) : Type :=
  | Ok (a : A)
  | Raise (e : E).
Arguments Ok {E A} a.
Arguments Raise {E A} e.

Definition bind {E A B} (r : result E A) (k : A -> result E B) : result E B :=
  match r with
  | Ok a => k a
  | Raise e => Raise e
  end.

Notation "'do' x <- r ; k" := (bind r (fun x => k))
  (at level 10, x name, r at level 100, k at level 200).

Definition succeeds {E A} (r : result E A) : bool :=
  match r with Ok _ => true | Raise _ => false end.

(** ** The file system *)

Module FS.

(** The name space of a file system: a tree whose inner nodes are
    directories and whose leaves are regular files or empty directories.
    Only what [mkdir] and [is_dir] observe is kept: file contents,
    owners and permission bits are not part of the state. *)
Inductive node : Type :=
  | File
  | Dir (entries : gmap string node).

(** The node a list of components (root first) names, walking down
    from [n]. *)
Fixpoint resolve (parts : list string) (n : node) : option node :=
  match parts with
  | [] => Some n
  | c :: rest =>
      match n with
      | File => None
      | Dir es =>
          match es !! c with
          | Some child => resolve rest child
          | None => None
          end
      end
  end.

Definition is_dir_node (o : option node) : bool :=
  match o with
  | Some (Dir _) => true
  | _ => false
  end.

Definition is_file_node (o : option node) : bool :=
  match o with
  | Some File => true
  | _ => false
  end.

(** What [stat] tells of a path: nothing, a regular file, a directory. *)
Inductive kind : Type := KFile | KDir.

Definition kind_of (n : node) : kind :=
  match n with File => KFile | Dir _ => KDir end.

Definition kind_at (parts : list string) (n : node) : option kind :=
  kind_of <$> resolve parts n.

(** [os.mkdir(path)]: the walk to the parent fails with [ENOTDIR] on a
    component that is not a directory and with [ENOENT] on a missing
    one; at the parent, an existing entry of any kind gives [EEXIST],
    otherwise an empty directory is added. *)
Fixpoint os_mkdir (parts : list string) (n : node) : result OSError node :=
  match parts with
  | [] => Raise FileExistsError
  | c :: rest =>
      match n with
      | File => Raise NotADirectoryError
      | Dir es =>
          match es !! c, rest with
          | Some child, _ =>
              do child' <- os_mkdir rest child;
              Ok (Dir (<[c := child']> es))
          | None, [] => Ok (Dir (<[c := Dir ∅]> es))
          | None, _ :: _ => Raise FileNotFoundError
          end
      end
  end.

End FS.

(** ** [pathlib] *)

(** An absolute POSIX path, as the list of its components with the LAST
    component first, so that [p.parent] is the tail and [p / name] is a
    cons. The root is the empty list, and is its own parent. *)
Abbreviation Path := (list string).

Module PurePath.

(** [Path.parts] without the anchor: root first. *)
Definition parts (p : Path) : list string := rev p.

(** [p / name] for a [name] that is a single relative component, the
    only way the module uses the operator. *)
Definition truediv (p : Path) (name : string) : Path := name :: p.

(** [q] lies strictly below [b]. *)
Definition descendant_of (q b : Path) : Prop :=
  exists k : list string, k <> [] /\ q = k ++ b.

(** [str(p)]. *)
Definition str (p : Path) : string :=
  match parts p with
  | [] => "/"
  | cs => String.concat "" (map (fun c => "/" +:+ c) cs)
  end.

End PurePath.

Notation "p // name" := (PurePath.truediv p name) (at level 40, left associativity).

Module Pathlib.
Import FS PurePath.

(** [Path.is_dir()]: false when the path does not exist. *)
Definition is_dir (p : Path) (fs : node) : bool :=
  is_dir_node (resolve (parts p) fs).

Definition is_file (p : Path) (fs : node) : bool :=
  is_file_node (resolve (parts p) fs).

(** [Path.mkdir(parents=False, exist_ok=exist_ok)]:
<<
    try: os.mkdir(self, mode)
    except FileNotFoundError:
        if not parents or self.parent == self: raise
        ...
    except OSError:
        if not exist_ok or not self.is_dir(): raise
>> *)
Definition mkdir_noparents (exist_ok : bool) (p : Path) (fs : node)
  : result OSError node :=
  match os_mkdir (parts p) fs with
  | Ok fs' => Ok fs'
  | Raise FileNotFoundError => Raise FileNotFoundError
  | Raise e => if exist_ok && is_dir p fs then Ok fs else Raise e
  end.

(** [Path.mkdir(parents=True, exist_ok=exist_ok)]: on
    [FileNotFoundError] the parent is created with
    [parents=True, exist_ok=True] and the directory itself is then
    made with [parents=False]. *)
Fixpoint mkdir (exist_ok : bool) (p : Path) (fs : node)
  : result OSError node :=
  match os_mkdir (parts p) fs with
  | Ok fs' => Ok fs'
  | Raise FileNotFoundError =>
      match p with
      | [] => Raise FileNotFoundError
      | _ :: up =>
          do fs1 <- mkdir true up fs;
          mkdir_noparents exist_ok p fs1
      end
  | Raise e => if exist_ok && is_dir p fs then Ok fs else Raise e
  end.

End Pathlib.

(** ** Floats and their text *)

(** A Python [float] is a binary64 number; the kernel's primitive floats
    are the same numbers, and a literal is read to the nearest one as
    Python reads it. *)
Module PyFloat.

(** [0.0 <= x <= 1.0]. *)
Definition in_unit_interval (x : float) : bool :=
  ((0 <=? x) && (x <=? 1))%float.

(** [x * 2^a * 10^b] for [a], [b] clipped at 0: the integers compared
    when two numbers [x * 2^e2 * 10^e10] are brought to a common scale. *)
Definition scale (x a b : Z) : Z := x * 2 ^ Z.max a 0 * 10 ^ Z.max b 0.

(** [cmp_dec_bin d k x e]: [d * 10^k] compared with [x * 2^e]. *)
Definition cmp_dec_bin (d k x e : Z) : comparison :=
  scale d (- e) k ?= scale x e (- k).

(** The largest [t] with [10^t <= m * 2^e], for [m > 0]. *)
Definition floor_log10 (m e : Z) : Z :=
  let t0 := (Z.log2 m + e) * 30103 / 100000 - 1 in
  let le t := match cmp_dec_bin 1 t m e with Gt => false | _ => true end in
  if le (t0 + 2) then t0 + 2 else if le (t0 + 1) then t0 + 1 else t0.

(** Whether the decimal [d * 10^k] is read back as the float
    [m * 2^e]: it lies between the midpoints to the neighbouring
    floats, the midpoints themselves counting when [m] is even.
    In units of [2^(e-2)] the float is [4m], the upper midpoint [4m+2]
    and the lower one [4m-2], or [4m-1] just above a power of two. *)
Definition reads_back (m e d k : Z) : bool :=
  let lo := if (m =? 2 ^ 52) && (-1074 <? e) then 4 * m - 1 else 4 * m - 2 in
  let hi := 4 * m + 2 in
  let incl := Z.even m in
  match cmp_dec_bin d k lo (e - 2), cmp_dec_bin d k hi (e - 2) with
  | Gt, Lt => true
  | Eq, _ => incl
  | _, Eq => incl
  | _, _ => false
  end.

(** The [n]-digit decimal nearest to [m * 2^e] that reads back as it,
    if there is one: [(d, k)] for [d * 10^k]. *)
Definition nearest (m e : Z) (n : Z) : option (Z * Z) :=
  let k := floor_log10 m e - n + 1 in
  let d := scale m e (- k) / scale 1 (- e) k in
  let below := reads_back m e d k in
  let above := reads_back m e (d + 1) k in
  let up :=
    match cmp_dec_bin (2 * d + 1) k (2 * m) e with
    | Lt => true
    | Eq => Z.odd d
    | Gt => false
    end in
  if below && above then Some (if up then d + 1 else d, k)
  else if below then Some (d, k)
  else if above then Some (d + 1, k)
  else None.

(** The shortest such decimal, trying [n], [n + 1], ... digits. Seventeen
    digits tell any two binary64 numbers apart, so the search started at
    one digit with a fuel of seventeen ends before the fuel does. *)
Fixpoint shortest (m e : Z) (n : Z) (fuel : nat) : Z * Z :=
  match fuel with
  | O => (m, e)
  | S fuel' =>
      match nearest m e n with
      | Some dk => dk
      | None => shortest m e (n + 1) fuel'
      end
  end.

(** Trailing zeros move into the exponent. *)
Fixpoint strip (d k : Z) (fuel : nat) : Z * Z :=
  match fuel with
  | O => (d, k)
  | S fuel' => if d mod 10 =? 0 then strip (d / 10) (k + 1) fuel' else (d, k)
  end.

Definition zeros (n : Z) : string := String.concat "" (replicate (Z.to_nat n) "0").

Definition take_s (n : Z) (s : string) : string :=
  String.substring 0 (Z.to_nat n) s.
Definition drop_s (n : Z) (s : string) : string :=
  String.substring (Z.to_nat n) (String.length s - Z.to_nat n) s.

(** The layout of [repr]: exponent notation when the decimal point
    falls at or before the fourth zero or after the sixteenth digit,
    and [.0] added to a number without fraction. *)
Definition layout (d k : Z) : string :=
  let ds := pretty d in
  let n := Z.of_nat (String.length ds) in
  let decpt := k + n in
  if (decpt <=? -4) || (16 <? decpt) then
    let x := decpt - 1 in
    let mant := if n =? 1 then ds else take_s 1 ds +:+ "." +:+ drop_s 1 ds in
    let xs := pretty (Z.abs x) in
    mant +:+ "e" +:+ (if x <? 0 then "-" else "+")
         +:+ (if Z.abs x <? 10 then "0" else "") +:+ xs
  else if decpt <=? 0 then "0." +:+ zeros (- decpt) +:+ ds
  else if n <=? decpt then ds +:+ zeros (decpt - n) +:+ ".0"
  else take_s decpt ds +:+ "." +:+ drop_s decpt ds.

(** [repr(x)], which is also [str(x)] and what an f-string writes for
    a float: the shortest decimal that reads back as [x]. *)
Definition repr (x : float) : string :=
  match Prim2SF x with
  | S754_nan => "nan"
  | S754_zero s => if s then "-0.0" else "0.0"
  | S754_infinity s => if s then "-inf" else "inf"
  | S754_finite s m e =>
      let '(d, k) := shortest (Zpos m) e 1 17 in
      let '(d, k) := strip d k 17 in
      (if s then "-" else "") +:+ layout d k
  end.

End PyFloat.

Module PyStr.

(** [str(b)] for a [bool]. *)
Definition str_bool (b : bool) : string := if b then "True" else "False".

(** [sub in s] for two strings. *)
Definition contains (sub s : string) : bool :=
  match String.index 0 sub s with
  | Some _ => true
  | None => false
  end.

End PyStr.

(** ** The module [config] *)

Module Config.
Import FS PurePath.

(** A colour of [BBOX_COLORS] and the pair [FIGURE_SIZE]. *)
Abbreviation color := (Z * Z * Z)%type.

(** The right-hand sides that are literals in the module text, one field
    per global name, in the order of the source. *)
Record Literals : Type := {
  YOLO_MODEL : string;
  YOLO_CONFIDENCE_THRESHOLD : float;
  YOLO_IOU_THRESHOLD : float;
  ANIMAL_CLASSES : gmap Z string;
  VIDEO_FPS_SAMPLE : Z;
  VIDEO_RESIZE_FACTOR : float;
  YAMNET_MODEL_URL : string;
  YAMNET_SAMPLE_RATE : Z;
  AUDIO_CONFIDENCE_THRESHOLD : float;
  NATURE_SOUND_CLASSES : list string;
  ALERT_MIN_ANIMALS : Z;
  ALERT_MAX_ANIMALS : Z;
  ALERT_RARE_SPECIES : list string;
  ALERT_ACTIVITY_DROP : float;
  ALERT_ACTIVITY_SPIKE : float;
  FIGURE_SIZE : Z * Z;
  FIGURE_DPI : Z;
  COLOR_PALETTE : string;
  BBOX_COLORS : gmap string color;
  EXPORT_FORMAT : string;
  DATETIME_FORMAT : string;
  SAVE_VISUALIZATIONS : bool;
  IMAGE_FORMAT : string;
  LOG_LEVEL : string;
  SAVE_LOGS : bool;
  USE_GPU : bool;
  BATCH_SIZE : Z;
  NUM_WORKERS : Z;
  TIMEZONE : string;
  REPORT_LANGUAGE : string;
  ALERT_EMAIL : option string;
  TELEGRAM_BOT_TOKEN : option string;
  TELEGRAM_CHAT_ID : option string;
  VERSION : string;
  PROJECT_NAME : string;
  PROJECT_DESCRIPTION : string;
}.

(** The literals as [config.py] writes them. *)
Definition source_literals : Literals := {|
  YOLO_MODEL := "yolov8n.pt";
  YOLO_CONFIDENCE_THRESHOLD := 0.25%float;
  YOLO_IOU_THRESHOLD := 0.45%float;
  ANIMAL_CLASSES :=
    <[14 := "bird"]> (<[15 := "cat"]> (<[16 := "dog"]> (<[17 := "horse"]>
    (<[18 := "sheep"]> (<[19 := "cow"]> (<[20 := "elephant"]>
    (<[21 := "bear"]> (<[22 := "zebra"]> (<[23 := "giraffe"]> ∅)))))))));
  VIDEO_FPS_SAMPLE := 2;
  VIDEO_RESIZE_FACTOR := 1.0%float;
  YAMNET_MODEL_URL := "https://tfhub.dev/google/yamnet/1";
  YAMNET_SAMPLE_RATE := 16000;
  AUDIO_CONFIDENCE_THRESHOLD := 0.3%float;
  NATURE_SOUND_CLASSES :=
    ["Bird"; "Bird vocalization"; "Bird flight"; "Chirp"; "Tweet";
     "Squawk"; "Animal"; "Domestic animals"; "Wild animals"; "Insect";
     "Cricket"; "Frog"; "Wind"; "Rain"; "Stream"; "Ocean"; "Thunder"];
  ALERT_MIN_ANIMALS := 10;
  ALERT_MAX_ANIMALS := 100;
  ALERT_RARE_SPECIES := ["bear"; "elephant"; "giraffe"; "zebra"];
  ALERT_ACTIVITY_DROP := 0.5%float;
  ALERT_ACTIVITY_SPIKE := 2.0%float;
  FIGURE_SIZE := (15, 8);
  FIGURE_DPI := 100;
  COLOR_PALETTE := "viridis";
  BBOX_COLORS :=
    <["bird" := (0, 255, 0)]> (<["bear" := (255, 0, 0)]>
    (<["deer" := (0, 255, 255)]> (<["default" := (255, 255, 0)]> ∅)));
  EXPORT_FORMAT := "csv";
  DATETIME_FORMAT := "%Y-%m-%d_%H-%M-%S";
  SAVE_VISUALIZATIONS := true;
  IMAGE_FORMAT := "png";
  LOG_LEVEL := "INFO";
  SAVE_LOGS := true;
  USE_GPU := true;
  BATCH_SIZE := 16;
  NUM_WORKERS := 4;
  TIMEZONE := "UTC";
  REPORT_LANGUAGE := "ru";
  ALERT_EMAIL := None;
  TELEGRAM_BOT_TOKEN := None;
  TELEGRAM_CHAT_ID := None;
  VERSION := "1.0.0";
  PROJECT_NAME := "Ecosystem Monitoring System";
  PROJECT_DESCRIPTION := "Система мониторинга экосистемы с использованием ML";
|}.

(** The module's global names once its body has run: the paths, which
    are computed from the directory of the module file, and the
    literals. *)
Record Config : Type := {
  BASE_DIR : Path;
  DATA_DIR : Path;
  VIDEO_DIR : Path;
  AUDIO_DIR : Path;
  IMAGES_DIR : Path;
  RESULTS_DIR : Path;
  MODELS_DIR : Path;
  LOG_FILE : Path;
  literals : Literals;
}.

(** The assignments of the module body. [here] is
    [Path(__file__).parent.absolute()]. *)
Definition bindings (lits : Literals) (here : Path) : Config :=
  let base := here in
  let data := base // "data" in
  {| BASE_DIR := base;
     DATA_DIR := data;
     VIDEO_DIR := data // "videos";
     AUDIO_DIR := data // "audio";
     IMAGES_DIR := data // "images";
     RESULTS_DIR := data // "results";
     MODELS_DIR := base // "models";
     LOG_FILE := base // "ecosystem_monitor.log";
     literals := lits |}.

(** The list the bootstrap loop iterates over. *)
Definition directories (c : Config) : list Path :=
  [DATA_DIR c; VIDEO_DIR c; AUDIO_DIR c; IMAGES_DIR c; RESULTS_DIR c;
   MODELS_DIR c].

(** [for directory in [...]: directory.mkdir(parents=True, exist_ok=True)];
    the first exception leaves the loop and the module. *)
Fixpoint bootstrap (ds : list Path) (fs : node) : result OSError node :=
  match ds with
  | [] => Ok fs
  | d :: ds' =>
      do fs' <- Pathlib.mkdir true d fs;
      bootstrap ds' fs'
  end.

(** Every path of the list is an entry of a directory that is known to
    be there or that comes earlier in the list. *)
Fixpoint chained (known ds : list Path) : Prop :=
  match ds with
  | [] => True
  | d :: ds' =>
      match d with
      | [] => False
      | _ :: up => up ∈ known
      end /\ chained (d :: known) ds'
  end.

(** Running the module body with the literals [lits], from the directory
    [here], on the file system [fs]. No statement of the body inspects a
    literal, so the statements run are the same for every [lits]. *)
Definition run_module (lits : Literals) (here : Path) (fs : node)
  : result OSError (Config * node) :=
  let c := bindings lits here in
  do fs' <- bootstrap (directories c) fs;
  Ok (c, fs').

(** Importing [config.py]. *)
Definition load (here : Path) (fs : node) : result OSError (Config * node) :=
  run_module source_literals here fs.

(** The text of [print_config()]: the ten lines its f-strings evaluate to,
    one per call of [print], in the order of the calls. It reads eight
    global names; every name is bound once the module body has run, and
    [str] of a string, a float, a bool or a path returns. The calls of
    [print] themselves, which write to a stream that may refuse a line,
    are [Stdout.print_config] below. *)
Definition print_config (c : Config) : list string :=
  let l := literals c in
  let rule := String.concat "" (replicate 60 "=") in
  [ rule;
    PROJECT_NAME l +:+ " v" +:+ VERSION l;
    rule;
    "Базовая директория: " +:+ PurePath.str (BASE_DIR c);
    "Директория данных: " +:+ PurePath.str (DATA_DIR c);
    "Модель YOLO: " +:+ YOLO_MODEL l;
    "Порог уверенности YOLO: " +:+ PyFloat.repr (YOLO_CONFIDENCE_THRESHOLD l);
    "Порог уверенности аудио: " +:+ PyFloat.repr (AUDIO_CONFIDENCE_THRESHOLD l);
    "Использование GPU: " +:+ PyStr.str_bool (USE_GPU l);
    rule ].

(** *** Variants of the module text

    The module text with some of its literals replaced, to state what
    the module body does with values other than the ones written. *)

Definition with_thresholds (yolo_conf yolo_iou audio_conf : float)
  (l : Literals) : Literals :=
  let 'Build_Literals a1 _ _ a4 a5 a6 a7 a8 _ a10 a11 a12 a13 a14 a15 a16
         a17 a18 a19 a20 a21 a22 a23 a24 a25 a26 a27 a28 a29 a30 a31 a32
         a33 a34 a35 a36 := l in
  Build_Literals a1 yolo_conf yolo_iou a4 a5 a6 a7 a8 audio_conf a10 a11
    a12 a13 a14 a15 a16 a17 a18 a19 a20 a21 a22 a23 a24 a25 a26 a27 a28
    a29 a30 a31 a32 a33 a34 a35 a36.

Definition with_alert_bounds (lo hi : Z) (l : Literals) : Literals :=
  let 'Build_Literals a1 a2 a3 a4 a5 a6 a7 a8 a9 a10 _ _ a13 a14 a15 a16
         a17 a18 a19 a20 a21 a22 a23 a24 a25 a26 a27 a28 a29 a30 a31 a32
         a33 a34 a35 a36 := l in
  Build_Literals a1 a2 a3 a4 a5 a6 a7 a8 a9 a10 lo hi a13 a14 a15 a16
    a17 a18 a19 a20 a21 a22 a23 a24 a25 a26 a27 a28 a29 a30 a31 a32 a33
    a34 a35 a36.


Definition with_channels (email token chat : option string) (l : Literals)
  : Literals :=
  let 'Build_Literals a1 a2 a3 a4 a5 a6 a7 a8 a9 a10 a11 a12 a13 a14 a15
         a16 a17 a18 a19 a20 a21 a22 a23 a24 a25 a26 a27 a28 a29 a30 _ _
         _ a34 a35 a36 := l in
  Build_Literals a1 a2 a3 a4 a5 a6 a7 a8 a9 a10 a11 a12 a13 a14 a15 a16
    a17 a18 a19 a20 a21 a22 a23 a24 a25 a26 a27 a28 a29 a30 email token
    chat a34 a35 a36.

(** The record with its literals changed, paths kept. *)
Definition map_literals (f : Literals -> Literals) (c : Config) : Config :=
  {| BASE_DIR := BASE_DIR c;
     DATA_DIR := DATA_DIR c;
     VIDEO_DIR := VIDEO_DIR c;
     AUDIO_DIR := AUDIO_DIR c;
     IMAGES_DIR := IMAGES_DIR c;
     RESULTS_DIR := RESULTS_DIR c;
     MODELS_DIR := MODELS_DIR c;
     LOG_FILE := LOG_FILE c;
     literals := f (literals c) |}.

(** The paths of the record other than [BASE_DIR]. *)
Definition derived_paths (c : Config) : list Path :=
  directories c ++ [LOG_FILE c].


End Config.

(** ** Consumers of the record *)

Module Consumer.
Import Config.

(** [KeyError(key)]. *)
Inductive KeyError : Type := KeyError_of (key : string).

(** Modelled from the spec: the colour lookup of the visualisation layer,
    which is not in [config.py]. The spec's words: the mapping "contains
    a default entry used for any species not explicitly listed (fallback
    lookup contract, not an error)". On a plain [dict] this is
    [colors.get(species, colors['default'])], whose second argument raises
    [KeyError] when the mapping has no ['default'] key. *)
Definition color_lookup (colors : gmap string color) (species : string)
  : result KeyError color :=
  match colors !! "default" with
  | None => Raise (KeyError_of "default")
  | Some fallback =>
      match colors !! species with
      | Some c => Ok c
      | None => Ok fallback
      end
  end.

(** A plain subscript [colors[species]], for comparison. *)
Definition getitem (colors : gmap string color) (species : string)
  : result KeyError color :=
  match colors !! species with
  | Some c => Ok c
  | None => Raise (KeyError_of species)
  end.

End Consumer.

(** ** Sample states *)

Module Sample.
Import FS Config.

(** [/srv/eco], the directory that holds [config.py]. *)
Definition here : Path := ["eco"; "srv"].

(** A fresh checkout: only the module file is there. *)
Definition fresh : node :=
  Dir {[ "srv" := Dir {[ "eco" := Dir {[ "config.py" := File ]} ]} ]}.

(** The layout after a first import. *)
Definition ready : node :=
  Dir {[ "srv" := Dir {[ "eco" := Dir (
    <[ "config.py" := File ]> (
    <[ "data" := Dir (<[ "videos" := Dir ∅ ]> (<[ "audio" := Dir ∅ ]> (
                      <[ "images" := Dir ∅ ]> {[ "results" := Dir ∅ ]}))) ]>
    {[ "models" := Dir ∅ ]})) ]} ]}.

(** A regular file sits where [data/videos] should be. *)
Definition blocked : node :=
  Dir {[ "srv" := Dir {[ "eco" := Dir (
    <[ "config.py" := File ]> {[ "data" := Dir {[ "videos" := File ]} ]}) ]} ]}.

Definition config : Config := bindings source_literals here.

(** The module text with all three thresholds out of range: a confidence
    of 1.5, an IoU of -0.1, an audio confidence of 2.0. *)
Definition wild_thresholds : Literals :=
  with_thresholds 1.5 (-0.1) 2.0 source_literals.


(** The module text with the alert bounds inverted. *)
Definition inverted_bounds : Literals :=
  with_alert_bounds 50 10 source_literals.

(** The record with the three notification channels set. *)
Definition notified : Config :=
  map_literals
    (with_channels (Some "ecologist@example.com") (Some "token") (Some "42"))
    config.

End Sample.

(** ** What an exception leaves on disk *)

(** [result] forgets the file system when an exception is raised. Here
    are the same operations returning it in both cases, to tell what an
    import that fails has already done. A system call that fails changes
    nothing; [Path.mkdir] and the loop undo nothing. *)
Module OnDisk.
Import FS PurePath Config.

(** [Path.mkdir(parents=False, exist_ok=exist_ok)]. *)
Definition mkdir_noparents (exist_ok : bool) (p : Path) (fs : node)
  : node * result OSError () :=
  match os_mkdir (parts p) fs with
  | Ok fs' => (fs', Ok ())
  | Raise FileNotFoundError => (fs, Raise FileNotFoundError)
  | Raise e =>
      if exist_ok && Pathlib.is_dir p fs then (fs, Ok ()) else (fs, Raise e)
  end.

(** [Path.mkdir(parents=True, exist_ok=exist_ok)]. *)
Fixpoint mkdir (exist_ok : bool) (p : Path) (fs : node)
  : node * result OSError () :=
  match os_mkdir (parts p) fs with
  | Ok fs' => (fs', Ok ())
  | Raise FileNotFoundError =>
      match p with
      | [] => (fs, Raise FileNotFoundError)
      | _ :: up =>
          match mkdir true up fs with
          | (fs1, Ok _) => mkdir_noparents exist_ok p fs1
          | (fs1, Raise e) => (fs1, Raise e)
          end
      end
  | Raise e =>
      if exist_ok && Pathlib.is_dir p fs then (fs, Ok ()) else (fs, Raise e)
  end.

(** The bootstrap loop. *)
Fixpoint bootstrap (ds : list Path) (fs : node) : node * result OSError () :=
  match ds with
  | [] => (fs, Ok ())
  | d :: ds' =>
      match mkdir true d fs with
      | (fs', Ok _) => bootstrap ds' fs'
      | (fs', Raise e) => (fs', Raise e)
      end
  end.

(** Importing [config.py]. *)
Definition load (here : Path) (fs : node) : node * result OSError Config :=
  let c := bindings source_literals here in
  match bootstrap (directories c) fs with
  | (fs', Ok _) => (fs', Ok c)
  | (fs', Raise e) => (fs', Raise e)
  end.

(** What [result] keeps of an outcome. *)
Definition returned (o : node * result OSError ()) : result OSError node :=
  match o with
  | (fs', Ok _) => Ok fs'
  | (_, Raise e) => Raise e
  end.

Definition forget {A} (o : node * result OSError A) : result OSError (A * node) :=
  match o with
  | (fs', Ok a) => Ok (a, fs')
  | (_, Raise e) => Raise e
  end.

End OnDisk.

Module Aftermath.
Import FS Config.

(** A regular file sits where [models], the last directory of the list,
    should be. *)
Definition models_is_file : node :=
  Dir {[ "srv" := Dir {[ "eco" := Dir (
    <[ "config.py" := File ]> {[ "models" := File ]}) ]} ]}.

(** What the import leaves there when it fails. *)
Definition half_made : node :=
  Dir {[ "srv" := Dir {[ "eco" := Dir (
    <[ "config.py" := File ]> (
    <[ "data" := Dir (<[ "videos" := Dir ∅ ]> (<[ "audio" := Dir ∅ ]> (
                      <[ "images" := Dir ∅ ]> {[ "results" := Dir ∅ ]}))) ]>
    {[ "models" := File ]})) ]} ]}.

(** [/srv] is a regular file, so that the path of the module's directory
    runs through a file. *)
Definition srv_is_file : node := Dir {[ "srv" := File ]}.

End Aftermath.

(** ** Standard output *)

Module Stdout.
Import Config.

(** What a write to [sys.stdout] raises: the text has a character the
    encoding of the stream lacks; the stream is closed; the operating
    system refuses the write. *)
Inductive WriteError : Type :=
  | UnicodeEncodeError
  | ValueError
  | WriteOSError.

(** A text stream, as far as [print] meets it: given the lines written so
    far, whether it takes the next line or raises. *)
Record stream : Type := {
  refuses : list string -> string -> option WriteError;
}.

(** A run of [print(line)] calls on a stream that holds [written]: the
    first line refused ends the run with the exception, the lines before
    it written. *)
Fixpoint print_lines (out : stream) (written lines : list string)
  : list string * result WriteError () :=
  match lines with
  | [] => (written, Ok ())
  | line :: rest =>
      match refuses out written line with
      | Some e => (written, Raise e)
      | None => print_lines out (written ++ [line]) rest
      end
  end.

(** [print_config()], writing to [out]: the lines [out] holds afterwards,
    and how the call ends. *)
Definition print_config (out : stream) (c : Config)
  : list string * result WriteError () :=
  print_lines out [] (Config.print_config c).

(** The bytes of a text in UTF-8, which is how the strings here hold it. *)
Definition bytes (s : string) : list N :=
  map Ascii.N_of_ascii (String.list_ascii_of_string s).

Definition within (lo hi b : N) : bool := ((lo <=? b) && (b <=? hi))%N.

(** Well-formed UTF-8: no stray or missing continuation byte, no overlong
    form, no surrogate, nothing above U+10FFFF. A [str] that came from
    bytes which are not, holds lone surrogates, which no strict encoder
    takes. *)
Fixpoint utf8 (bs : list N) : bool :=
  match bs with
  | [] => true
  | b0 :: r1 =>
      if (b0 <? 128)%N then utf8 r1
      else
        match r1 with
        | [] => false
        | b1 :: r2 =>
            if within 194 223 b0 then within 128 191 b1 && utf8 r2
            else
              match r2 with
              | [] => false
              | b2 :: r3 =>
                  if within 224 239 b0 then
                    within (if (b0 =? 224)%N then 160 else 128)
                           (if (b0 =? 237)%N then 159 else 191) b1
                    && within 128 191 b2 && utf8 r3
                  else
                    match r3 with
                    | [] => false
                    | b3 :: r4 =>
                        within 240 244 b0
                        && within (if (b0 =? 240)%N then 144 else 128)
                                  (if (b0 =? 244)%N then 143 else 191) b1
                        && within 128 191 b2 && within 128 191 b3 && utf8 r4
                    end
              end
        end
  end.

(** A stream that encodes to UTF-8, strictly. *)
Definition utf8_strict : stream :=
  {| refuses _ line :=
       if utf8 (bytes line) then None else Some UnicodeEncodeError |}.

(** A stream that encodes to ASCII, strictly. *)
Definition ascii_strict : stream :=
  {| refuses _ line :=
       if forallb (fun b => (b <? 128)%N) (bytes line) then None
       else Some UnicodeEncodeError |}.

(** A stream that has been closed. *)
Definition closed : stream := {| refuses _ _ := Some ValueError |}.

End Stdout.

Module Elsewhere.

(** [/srv/caf\xe9]: a directory whose name, in Latin-1, is not UTF-8. *)
Definition latin1_dir : Path :=
  ["caf" +:+ String (Ascii.ascii_of_N 233) ""; "srv"].

End Elsewhere.

Import FS PurePath Config.

Example print_config_ascii_stdout :
  Stdout.print_config Stdout.ascii_strict Sample.config
  = (take 3 (print_config Sample.config), Raise Stdout.UnicodeEncodeError).
Proof. vm_compute. reflexivity. Qed.

Example print_config_utf8_stdout :
  Stdout.print_config Stdout.utf8_strict Sample.config
  = (print_config Sample.config, Ok ()).
Proof. vm_compute. reflexivity. Qed.

Example print_config_latin1_dir :
  Stdout.print_config Stdout.utf8_strict
    (bindings source_literals Elsewhere.latin1_dir)
  = (take 3 (print_config Sample.config), Raise Stdout.UnicodeEncodeError).
Proof. vm_compute. reflexivity. Qed.

Example utf8_samples :
  Stdout.utf8 (Stdout.bytes "Базовая директория: /srv/eco") = true /\
  Stdout.utf8 [237; 160; 128]%N = false /\
  Stdout.utf8 [192; 128]%N = false /\
  Stdout.utf8 [244; 144; 128; 128]%N = false /\
  Stdout.utf8 [226; 130]%N = false /\
  Stdout.utf8 [240; 159; 166; 140]%N = true.
Proof. vm_compute. repeat split. Qed.

Example print_config_closed_stdout :
  Stdout.print_config Stdout.closed Sample.config
  = ([], Raise Stdout.ValueError).
Proof. vm_compute. reflexivity. Qed.

Example load_models_is_file :
  OnDisk.load Sample.here Aftermath.models_is_file
  = (Aftermath.half_made, Raise FileExistsError).
Proof. vm_compute. reflexivity. Qed.

Example load_fresh : load Sample.here Sample.fresh = Ok (Sample.config, Sample.ready).
Proof. vm_compute. reflexivity. Qed.

Example load_ready : load Sample.here Sample.ready = Ok (Sample.config, Sample.ready).
Proof. vm_compute. reflexivity. Qed.

Example load_blocked : load Sample.here Sample.blocked = Raise FileExistsError.
Proof. vm_compute. reflexivity. Qed.

(** On a file system where not even the directory of the module file is
    there, [parents=True] makes [mkdir] create it and what is above it. *)
Example load_nowhere :
  exists fs', load Sample.here (Dir ∅) = Ok (Sample.config, fs') /\
              kind_at ["srv"] fs' = Some KDir.
Proof. eexists. split; vm_compute; reflexivity. Qed.

(** A regular file in the place of [data] itself. *)
Example load_data_is_file :
  load Sample.here
    (Dir {[ "srv" := Dir {[ "eco" := Dir {[ "data" := File ]} ]} ]})
  = Raise FileExistsError.
Proof. vm_compute. reflexivity. Qed.

(** [mkdir] below a regular file: the walk fails before the target. *)
Example mkdir_below_file :
  Pathlib.mkdir true ["videos"; "data"] (Dir {[ "data" := File ]})
  = Raise NotADirectoryError.
Proof. vm_compute. reflexivity. Qed.

Example repr_samples :
  map PyFloat.repr
    [0.25; 0.45; 0.3; 1.5; 2.0; 100.0; 0.30000000000000004; 1e16; 0.00001;
     1e22; 5e-324; (-0.5); 123456789.123]%float
  = ["0.25"; "0.45"; "0.3"; "1.5"; "2.0"; "100.0"; "0.30000000000000004";
     "1e+16"; "1e-05"; "1e+22"; "5e-324"; "-0.5"; "123456789.123"].
Proof. vm_compute. reflexivity. Qed.

(** A plain subscript of [BBOX_COLORS] with a species it does not list
    raises [KeyError]. *)
Example getitem_unlisted :
  Consumer.getitem (BBOX_COLORS source_literals) "deer-subspecies-x"
  = Raise (Consumer.KeyError_of "deer-subspecies-x").
Proof. vm_compute. reflexivity. Qed.


(** * Properties *)

(** ** The file system *)

Section fs_facts.
Implicit Types (n : node) (ps qs : list string) (es : gmap string node).

Lemma resolve_app ps qs n :
  resolve (ps ++ qs) n = resolve ps n ≫= resolve qs.
Proof.
  revert n. induction ps as [|c ps IH]; intros n; [done|].
  destruct n as [|es]; [done|]. cbn [app resolve].
  destruct (es !! c); [apply IH | done].
Qed.

(** Something below a node makes the node a directory. *)
Lemma resolve_below_is_dir ps qs n :
  qs <> [] -> is_Some (resolve (ps ++ qs) n) ->
  is_dir_node (resolve ps n) = true.
Proof.
  rewrite resolve_app. intros Hqs [x Hx].
  destruct (resolve ps n) as [[|es]|]; simplify_eq/=; [|done].
  destruct qs; done.
Qed.

(** [os.mkdir] on a path that exists. *)
Lemma os_mkdir_exists ps n :
  is_Some (resolve ps n) -> os_mkdir ps n = Raise FileExistsError.
Proof.
  revert n. induction ps as [|c ps IH]; intros n [x Hx]; [done|].
  destruct n as [|es]; [done|]. cbn [resolve os_mkdir] in *.
  destruct (es !! c) as [child|]; [|done].
  rewrite IH; [done | by eexists].
Qed.

(** [os.mkdir] succeeds only on a path that did not exist, and makes it
    an empty directory. *)
Lemma os_mkdir_creates ps n n' :
  os_mkdir ps n = Ok n' ->
  resolve ps n = None /\ resolve ps n' = Some (Dir ∅).
Proof.
  revert n n'. induction ps as [|c ps IH]; intros n n' H; [done|].
  destruct n as [|es]; [done|]. cbn [resolve os_mkdir] in *.
  destruct (es !! c) as [child|] eqn:Hc.
  - destruct (os_mkdir ps child) as [child'|] eqn:Hm; simplify_eq/=.
    rewrite lookup_insert_eq. by apply IH.
  - destruct ps; simplify_eq/=. by rewrite lookup_insert_eq.
Qed.

(** [os.mkdir] changes the kind of no other path. *)
Lemma os_mkdir_frame ps qs n n' :
  os_mkdir ps n = Ok n' -> qs <> ps -> kind_at qs n' = kind_at qs n.
Proof.
  revert qs n n'. induction ps as [|c ps IH]; intros qs n n' H Hne; [done|].
  destruct n as [|es]; [done|]. cbn [os_mkdir] in H.
  destruct (es !! c) as [child|] eqn:Hc.
  - destruct (os_mkdir ps child) as [child'|] eqn:Hm; simplify_eq/=.
    destruct qs as [|c2 qs]; [done|]. unfold kind_at. cbn [resolve].
    destruct (decide (c = c2)) as [->|Hcc].
    + rewrite lookup_insert_eq, Hc. apply (IH _ _ _ Hm). congruence.
    + by rewrite lookup_insert_ne.
  - destruct ps; simplify_eq/=.
    destruct qs as [|c2 qs]; [done|]. unfold kind_at. cbn [resolve].
    destruct (decide (c = c2)) as [->|Hcc].
    + rewrite lookup_insert_eq, Hc. destruct qs; [congruence | done].
    + by rewrite lookup_insert_ne.
Qed.

(** What exists keeps its kind. *)
Lemma os_mkdir_keeps ps qs n n' k :
  os_mkdir ps n = Ok n' -> kind_at qs n = Some k -> kind_at qs n' = Some k.
Proof.
  intros H Hk. destruct (decide (qs = ps)) as [->|Hne].
  - apply os_mkdir_creates in H as [H _]. unfold kind_at in Hk.
    by rewrite H in Hk.
  - by rewrite (os_mkdir_frame _ _ _ _ H Hne).
Qed.

(** Below an existing directory, [os.mkdir] fails only because the
    target is there. *)
Lemma os_mkdir_in_dir ps c n :
  is_dir_node (resolve ps n) = true ->
  (exists n', os_mkdir (ps ++ [c]) n = Ok n') \/
  os_mkdir (ps ++ [c]) n = Raise FileExistsError.
Proof.
  revert n. induction ps as [|c1 ps IH]; intros n H.
  - destruct n as [|es]; [done|]. cbn.
    destruct (es !! c); [right | left]; eauto.
  - destruct n as [|es]; [done|]. cbn [app resolve os_mkdir] in *.
    destruct (es !! c1) as [child|]; [|done].
    destruct (IH _ H) as [[n' ->]| ->]; [left | right]; eauto.
Qed.

End fs_facts.

(** ** [Path.mkdir] *)

Section mkdir_facts.
Implicit Types (fs : node) (p q up : Path) (c : string).

Lemma is_dir_kind p fs :
  Pathlib.is_dir p fs = true <-> kind_at (parts p) fs = Some KDir.
Proof.
  unfold Pathlib.is_dir, kind_at.
  destruct (resolve (parts p) fs) as [[|es]|]; naive_solver.
Qed.

Lemma is_file_kind p fs :
  Pathlib.is_file p fs = true <-> kind_at (parts p) fs = Some KFile.
Proof.
  unfold Pathlib.is_file, kind_at.
  destruct (resolve (parts p) fs) as [[|es]|]; naive_solver.
Qed.

Lemma kind_is_Some qs fs k :
  kind_at qs fs = Some k -> is_Some (resolve qs fs).
Proof. unfold kind_at. destruct (resolve qs fs); naive_solver. Qed.

Lemma mkdir_unfold exist_ok p fs :
  Pathlib.mkdir exist_ok p fs =
  match os_mkdir (parts p) fs with
  | Ok fs' => Ok fs'
  | Raise FileNotFoundError =>
      match p with
      | [] => Raise FileNotFoundError
      | _ :: up =>
          do fs1 <- Pathlib.mkdir true up fs;
          Pathlib.mkdir_noparents exist_ok p fs1
      end
  | Raise e => if exist_ok && Pathlib.is_dir p fs then Ok fs else Raise e
  end.
Proof. by destruct p. Qed.

(** On a directory that is there, [mkdir(parents=True, exist_ok=True)]
    returns and changes nothing. *)
Lemma mkdir_existing_dir p fs :
  Pathlib.is_dir p fs = true -> Pathlib.mkdir true p fs = Ok fs.
Proof.
  intros H. rewrite mkdir_unfold, os_mkdir_exists, H; [done|].
  apply is_dir_kind in H. by eapply kind_is_Some.
Qed.

(** On a regular file it raises [FileExistsError], whatever [exist_ok]. *)
Lemma mkdir_on_file exist_ok p fs :
  Pathlib.is_file p fs = true ->
  Pathlib.mkdir exist_ok p fs = Raise FileExistsError.
Proof.
  intros H. rewrite mkdir_unfold, os_mkdir_exists.
  - replace (Pathlib.is_dir p fs) with false; [by rewrite andb_false_r|].
    unfold Pathlib.is_dir, Pathlib.is_file in *.
    by destruct (resolve (parts p) fs) as [[|es]|].
  - apply is_file_kind in H. by eapply kind_is_Some.
Qed.

Lemma mkdir_noparents_keeps exist_ok p fs fs' qs k :
  Pathlib.mkdir_noparents exist_ok p fs = Ok fs' ->
  kind_at qs fs = Some k -> kind_at qs fs' = Some k.
Proof.
  unfold Pathlib.mkdir_noparents. intros H Hk.
  destruct (os_mkdir (parts p) fs) as [fs2|e] eqn:Hm.
  - simplify_eq. by eapply os_mkdir_keeps.
  - destruct e, (exist_ok && Pathlib.is_dir p fs); by simplify_eq.
Qed.

(** Whatever [mkdir] creates, what was there stays, with its kind. *)
Lemma mkdir_keeps exist_ok p fs fs' qs k :
  Pathlib.mkdir exist_ok p fs = Ok fs' ->
  kind_at qs fs = Some k -> kind_at qs fs' = Some k.
Proof.
  revert exist_ok fs fs'.
  induction p as [|c up IH]; intros exist_ok fs fs'; rewrite mkdir_unfold;
    intros H Hk.
  { cbn [parts rev os_mkdir] in H.
    destruct (exist_ok && Pathlib.is_dir [] fs); by simplify_eq. }
  destruct (os_mkdir _ fs) as [fs2|e] eqn:Hm.
  - simplify_eq. by eapply os_mkdir_keeps.
  - destruct e; try (destruct (exist_ok && Pathlib.is_dir _ fs); by simplify_eq).
    destruct (Pathlib.mkdir true up fs) as [fs1|] eqn:Hup; [|done].
    cbn [bind] in H. eapply mkdir_noparents_keeps; [done|]. by eapply IH.
Qed.

Lemma mkdir_noparents_makes_dir p fs fs' :
  Pathlib.mkdir_noparents true p fs = Ok fs' -> Pathlib.is_dir p fs' = true.
Proof.
  unfold Pathlib.mkdir_noparents. intros H.
  destruct (os_mkdir (parts p) fs) as [fs2|e] eqn:Hm.
  - simplify_eq. apply os_mkdir_creates in Hm as [_ Hm].
    unfold Pathlib.is_dir. by rewrite Hm.
  - destruct e, (Pathlib.is_dir p fs) eqn:?; by simplify_eq/=.
Qed.

(** After [mkdir(parents=True, exist_ok=True)] returns, the path is a
    directory. *)
Lemma mkdir_makes_dir p fs fs' :
  Pathlib.mkdir true p fs = Ok fs' -> Pathlib.is_dir p fs' = true.
Proof.
  rewrite mkdir_unfold. intros H.
  destruct (os_mkdir (parts p) fs) as [fs2|e] eqn:Hm.
  - simplify_eq. apply os_mkdir_creates in Hm as [_ Hm].
    unfold Pathlib.is_dir. by rewrite Hm.
  - destruct e; try (destruct (Pathlib.is_dir p fs) eqn:?; by simplify_eq/=).
    destruct p as [|c up]; [done|].
    destruct (Pathlib.mkdir true up fs) as [fs1|]; [|done].
    cbn [bind] in H. by eapply mkdir_noparents_makes_dir.
Qed.

(** Inside a directory that is there, [mkdir] adds at most the one
    entry, and fails only on an entry that is not a directory. *)
Lemma mkdir_in_dir c up fs :
  Pathlib.is_dir up fs = true ->
  Pathlib.mkdir true (c :: up) fs = Raise FileExistsError \/
  exists fs', Pathlib.mkdir true (c :: up) fs = Ok fs' /\
    forall qs, qs <> parts (c :: up) -> kind_at qs fs' = kind_at qs fs.
Proof.
  intros Hup. rewrite mkdir_unfold.
  destruct (os_mkdir_in_dir (parts up) c fs Hup) as [[fs' H]|H];
    change (parts (c :: up)) with (parts up ++ [c]); rewrite H.
  - right. exists fs'. split; [done|]. intros qs Hqs.
    by eapply os_mkdir_frame.
  - destruct (Pathlib.is_dir (c :: up) fs); cbn; [right | left]; eauto.
Qed.

End mkdir_facts.

(** ** The bootstrap loop *)

Section bootstrap_facts.
Implicit Types (fs : node) (d p : Path) (ds known : list Path).

Lemma bootstrap_existing ds fs :
  (forall d, d ∈ ds -> Pathlib.is_dir d fs = true) -> bootstrap ds fs = Ok fs.
Proof.
  induction ds as [|d ds IH]; intros H; [done|]. cbn [bootstrap].
  rewrite mkdir_existing_dir by (apply H; left). cbn [bind].
  apply IH. intros d' Hd'. apply H. by right.
Qed.

Lemma bootstrap_keeps ds fs fs' qs k :
  bootstrap ds fs = Ok fs' ->
  kind_at qs fs = Some k -> kind_at qs fs' = Some k.
Proof.
  revert fs. induction ds as [|d ds IH]; intros fs H Hk; [by simplify_eq/=|].
  cbn [bootstrap] in H.
  destruct (Pathlib.mkdir true d fs) as [fs1|] eqn:Hd; [|done].
  eapply IH; [done|]. by eapply mkdir_keeps.
Qed.

(** When the loop ends, every directory of the list is there. *)
Lemma bootstrap_makes_dirs ds fs fs' d :
  bootstrap ds fs = Ok fs' -> d ∈ ds -> Pathlib.is_dir d fs' = true.
Proof.
  revert fs. induction ds as [|d1 ds IH]; intros fs H Hd.
  { by apply elem_of_nil in Hd. }
  cbn [bootstrap] in H.
  destruct (Pathlib.mkdir true d1 fs) as [fs1|] eqn:H1; [|done].
  cbn [bind] in H. apply elem_of_cons in Hd as [->|Hd]; [|by eapply IH].
  apply is_dir_kind. eapply bootstrap_keeps; [done|].
  apply is_dir_kind. by eapply mkdir_makes_dir.
Qed.

(** A regular file at one of the paths stops the loop. *)
Lemma bootstrap_blocked ds fs d :
  d ∈ ds -> Pathlib.is_file d fs = true -> succeeds (bootstrap ds fs) = false.
Proof.
  revert fs. induction ds as [|d1 ds IH]; intros fs Hd Hf.
  { by apply elem_of_nil in Hd. }
  cbn [bootstrap].
  destruct (Pathlib.mkdir true d1 fs) as [fs1|] eqn:H1; [|done].
  cbn [bind]. apply elem_of_cons in Hd as [->|Hd].
  - by rewrite (mkdir_on_file _ _ _ Hf) in H1.
  - apply IH; [done|]. apply is_file_kind. eapply mkdir_keeps; [done|].
    by apply is_file_kind.
Qed.

(** On a chained list the loop fails only with [FileExistsError], and
    when it returns it has changed nothing but the paths of the list. *)
Lemma bootstrap_chained ds known fs :
  (forall u, u ∈ known -> Pathlib.is_dir u fs = true) ->
  chained known ds ->
  bootstrap ds fs = Raise FileExistsError \/
  exists fs', bootstrap ds fs = Ok fs' /\
    forall qs, (forall d, d ∈ ds -> qs <> parts d) ->
               kind_at qs fs' = kind_at qs fs.
Proof.
  revert known fs. induction ds as [|d ds IH]; intros known fs Hknown Hch.
  { right. by exists fs. }
  destruct Hch as [Hd Hch]. destruct d as [|c up]; [done|].
  cbn [bootstrap].
  destruct (mkdir_in_dir c up fs (Hknown _ Hd)) as [->|(fs1 & H1 & Hfr1)];
    [by left|].
  rewrite H1. cbn [bind].
  destruct (IH (((c :: up) : Path) :: known) fs1) as [->|(fs' & -> & Hfr)];
    [| done | by left |].
  - intros u [->|Hu]%elem_of_cons; [by eapply mkdir_makes_dir|].
    apply is_dir_kind. eapply mkdir_keeps; [done|].
    apply is_dir_kind. by apply Hknown.
  - right. exists fs'. split; [done|]. intros qs Hqs.
    rewrite Hfr, Hfr1; [done | |]; intros; apply Hqs; set_solver.
Qed.

End bootstrap_facts.

(** ** Importing the module *)

Section load_facts.
Implicit Types (fs : node) (here : Path) (lits : Literals) (c : Config).

Lemma run_module_inv lits here fs c fs' :
  run_module lits here fs = Ok (c, fs') ->
  c = bindings lits here /\ bootstrap (directories c) fs = Ok fs'.
Proof.
  unfold run_module.
  destruct (bootstrap _ fs) as [fs1|] eqn:H; intros; by simplify_eq/=.
Qed.

Lemma load_inv here fs c fs' :
  load here fs = Ok (c, fs') ->
  c = bindings source_literals here /\ bootstrap (directories c) fs = Ok fs'.
Proof. apply run_module_inv. Qed.

(** Whether the module body returns does not depend on its literals. *)
Lemma run_module_ignores_literals lits lits' here fs :
  succeeds (run_module lits here fs) = succeeds (run_module lits' here fs).
Proof.
  unfold run_module.
  change (directories (bindings lits' here))
    with (directories (bindings lits here)).
  by destruct (bootstrap _ fs).
Qed.

(** The record keeps the literals as they are written. *)
Lemma run_module_literals lits here fs c fs' :
  run_module lits here fs = Ok (c, fs') -> literals c = lits.
Proof. by intros [-> _]%run_module_inv. Qed.

Lemma directories_chained lits here :
  chained [here] (directories (bindings lits here)).
Proof. cbn. repeat split; set_solver. Qed.

(** X4. A second import, after one that returned, returns the same record
    and changes nothing, whatever the file system the first one started
    on. *)
Theorem load_idempotent here fs c fs' :
  load here fs = Ok (c, fs') -> load here fs' = Ok (c, fs').
Proof.
  intros [-> H]%load_inv. unfold load, run_module.
  rewrite bootstrap_existing; [done|].
  intros d Hd. by eapply bootstrap_makes_dirs.
Qed.

End load_facts.

(** * The configuration record *)

Section record_facts.
Implicit Types (fs : node) (here : Path) (c : Config).

(** C1 (as amended). The YOLO confidence, the YOLO IoU and the audio
    confidence of the record an import yields are the constants 0.25,
    0.45 and 0.3, so each of them lies in [0.0, 1.0]. The module body
    checks none of them. Whatever thresholds the module text writes, the
    import ends as it does without the change: it raises the same
    exception, or it returns with the same file system and a record that
    differs in the three thresholds only, which are the values written. *)
Theorem load_thresholds_in_unit_interval :
  (forall here fs c fs',
     load here fs = Ok (c, fs') ->
     PyFloat.in_unit_interval (YOLO_CONFIDENCE_THRESHOLD (literals c)) = true /\
     PyFloat.in_unit_interval (YOLO_IOU_THRESHOLD (literals c)) = true /\
     PyFloat.in_unit_interval (AUDIO_CONFIDENCE_THRESHOLD (literals c)) = true) /\
  (forall yolo_conf yolo_iou audio_conf lits here fs,
     succeeds (run_module (with_thresholds yolo_conf yolo_iou audio_conf lits)
                 here fs)
     = succeeds (run_module lits here fs)) /\
  (forall here fs c fs',
     load here fs = Ok (c, fs') ->
     YOLO_CONFIDENCE_THRESHOLD (literals c) = 0.25%float /\
     YOLO_IOU_THRESHOLD (literals c) = 0.45%float /\
     AUDIO_CONFIDENCE_THRESHOLD (literals c) = 0.3%float) /\
  (forall yolo_conf yolo_iou audio_conf lits here fs,
     run_module (with_thresholds yolo_conf yolo_iou audio_conf lits) here fs
     = match run_module lits here fs with
       | Ok (c, fs') =>
           Ok (map_literals (with_thresholds yolo_conf yolo_iou audio_conf) c,
               fs')
       | Raise e => Raise e
       end) /\
  (forall yolo_conf yolo_iou audio_conf lits here fs c fs',
     run_module (with_thresholds yolo_conf yolo_iou audio_conf lits) here fs
     = Ok (c, fs') ->
     YOLO_CONFIDENCE_THRESHOLD (literals c) = yolo_conf /\
     YOLO_IOU_THRESHOLD (literals c) = yolo_iou /\
     AUDIO_CONFIDENCE_THRESHOLD (literals c) = audio_conf) /\
  (forall lits here fs c fs',
     run_module lits here fs = Ok (c, fs') ->
     YOLO_CONFIDENCE_THRESHOLD (literals c) = YOLO_CONFIDENCE_THRESHOLD lits /\
     YOLO_IOU_THRESHOLD (literals c) = YOLO_IOU_THRESHOLD lits /\
     AUDIO_CONFIDENCE_THRESHOLD (literals c) = AUDIO_CONFIDENCE_THRESHOLD lits).
Proof.
  repeat apply conj.
  - intros here fs c fs' [-> _]%load_inv. by vm_compute.
  - intros. apply run_module_ignores_literals.
  - by intros here fs c fs' [-> _]%load_inv.
  - intros. unfold run_module.
    change (directories (bindings (with_thresholds yolo_conf yolo_iou
                                     audio_conf lits) here))
      with (directories (bindings lits here)).
    by destruct (bootstrap _ fs).
  - intros yolo_conf yolo_iou audio_conf lits here fs c fs'
      ->%run_module_literals. by destruct lits.
  - by intros lits here fs c fs' ->%run_module_literals.
Qed.

(** C6 (as amended). The record an import yields has
    [ALERT_MIN_ANIMALS = 10] and [ALERT_MAX_ANIMALS = 100], so the minimum
    is at most the maximum and both are non-negative integers. The module
    body does not compare them. Whatever bounds the module text writes,
    the import ends as it does without the change: it raises the same
    exception, or it returns with the same file system and a record that
    differs in the two bounds only, which are the values written. *)
Theorem load_alert_bounds_ordered :
  (forall here fs c fs',
     load here fs = Ok (c, fs') ->
     0 <= ALERT_MIN_ANIMALS (literals c) /\
     ALERT_MIN_ANIMALS (literals c) <= ALERT_MAX_ANIMALS (literals c) /\
     0 <= ALERT_MAX_ANIMALS (literals c)) /\
  (forall lo hi lits here fs,
     succeeds (run_module (with_alert_bounds lo hi lits) here fs)
     = succeeds (run_module lits here fs)) /\
  (forall here fs c fs',
     load here fs = Ok (c, fs') ->
     ALERT_MIN_ANIMALS (literals c) = 10 /\
     ALERT_MAX_ANIMALS (literals c) = 100) /\
  (forall lo hi lits here fs,
     run_module (with_alert_bounds lo hi lits) here fs
     = match run_module lits here fs with
       | Ok (c, fs') => Ok (map_literals (with_alert_bounds lo hi) c, fs')
       | Raise e => Raise e
       end) /\
  (forall lo hi lits here fs c fs',
     run_module (with_alert_bounds lo hi lits) here fs = Ok (c, fs') ->
     ALERT_MIN_ANIMALS (literals c) = lo /\
     ALERT_MAX_ANIMALS (literals c) = hi) /\
  (forall lits here fs c fs',
     run_module lits here fs = Ok (c, fs') ->
     ALERT_MIN_ANIMALS (literals c) = ALERT_MIN_ANIMALS lits /\
     ALERT_MAX_ANIMALS (literals c) = ALERT_MAX_ANIMALS lits).
Proof.
  repeat apply conj.
  - intros here fs c fs' [-> _]%load_inv. cbn. lia.
  - intros. apply run_module_ignores_literals.
  - by intros here fs c fs' [-> _]%load_inv.
  - intros. unfold run_module.
    change (directories (bindings (with_alert_bounds lo hi lits) here))
      with (directories (bindings lits here)).
    by destruct (bootstrap _ fs).
  - intros lo hi lits here fs c fs' ->%run_module_literals. by destruct lits.
  - by intros lits here fs c fs' ->%run_module_literals.
Qed.


(** C8. In the record an import yields the activity drop ratio is
    strictly between 0 and 1, the activity spike ratio is above 1, and
    the audio sample rate, the batch size and the number of workers are
    positive integers. *)
Theorem load_ratios_and_sizes here fs c fs' :
  load here fs = Ok (c, fs') ->
  ((0 <? ALERT_ACTIVITY_DROP (literals c))%float = true /\
   (ALERT_ACTIVITY_DROP (literals c) <? 1)%float = true) /\
  ((0 <? ALERT_ACTIVITY_SPIKE (literals c))%float = true /\
   (1 <? ALERT_ACTIVITY_SPIKE (literals c))%float = true) /\
  0 < YAMNET_SAMPLE_RATE (literals c) /\
  0 < BATCH_SIZE (literals c) /\
  0 < NUM_WORKERS (literals c).
Proof. intros [-> _]%load_inv. cbn. repeat split; (reflexivity || lia). Qed.

(** C9. Every species of [ALERT_RARE_SPECIES] is the label of some class
    of [ANIMAL_CLASSES]. *)
Theorem load_rare_species_are_labelled here fs c fs' :
  load here fs = Ok (c, fs') ->
  forall species, species ∈ ALERT_RARE_SPECIES (literals c) ->
  exists class_id, ANIMAL_CLASSES (literals c) !! class_id = Some species.
Proof.
  intros [-> _]%load_inv species Hs. cbn in Hs.
  repeat (apply elem_of_cons in Hs as [-> | Hs]);
    [by exists 21 | by exists 20 | by exists 23 | by exists 22 |].
  by apply elem_of_nil in Hs.
Qed.

End record_facts.

(** * The directory layout *)

Section layout_facts.
Implicit Types (fs : node) (here d : Path) (lits : Literals) (c : Config).

Lemma derived_paths_descend lits here d :
  d ∈ derived_paths (bindings lits here) -> descendant_of d here.
Proof.
  unfold derived_paths, directories, bindings, truediv. cbn [app].
  intros Hd. repeat (apply elem_of_cons in Hd as [-> | Hd]);
    [by exists ["data"] | by exists ["videos"; "data"]
    | by exists ["audio"; "data"] | by exists ["images"; "data"]
    | by exists ["results"; "data"] | by exists ["models"]
    | by exists ["ecosystem_monitor.log"] |].
  by apply elem_of_nil in Hd.
Qed.

Lemma directories_descend lits here d :
  d ∈ directories (bindings lits here) -> descendant_of d here.
Proof.
  intros Hd. apply (derived_paths_descend lits).
  unfold derived_paths. apply elem_of_app. by left.
Qed.

(** C2. On a file system where the six directories are already there as
    directories, importing the module returns, a second import returns
    again with the same record, and neither changes the layout. *)
Theorem load_twice_on_existing_layout here fs :
  (forall d, d ∈ directories (bindings source_literals here) ->
             Pathlib.is_dir d fs = true) ->
  exists c fs1 fs2,
    load here fs = Ok (c, fs1) /\ load here fs1 = Ok (c, fs2) /\
    fs1 = fs /\ fs2 = fs.
Proof.
  intros H.
  assert (load here fs = Ok (bindings source_literals here, fs)) as Hload.
  { unfold load, run_module. by rewrite bootstrap_existing. }
  by exists (bindings source_literals here), fs, fs.
Qed.

(** C3. When one of the six directory paths is a regular file, importing
    the module raises [FileExistsError], an [OSError]: no record is
    produced and the file is not taken for a directory. *)
Theorem load_blocked_by_file here fs d :
  d ∈ directories (bindings source_literals here) ->
  Pathlib.is_file d fs = true ->
  load here fs = Raise FileExistsError.
Proof.
  intros Hd Hf.
  assert (Pathlib.is_dir here fs = true) as Hhere.
  { destruct (directories_descend _ _ _ Hd) as (k & Hk & ->).
    apply is_file_kind, kind_is_Some in Hf.
    unfold parts in Hf. rewrite rev_app_distr in Hf.
    eapply resolve_below_is_dir; [|done]. by destruct k using rev_ind;
      [|rewrite rev_app_distr]. }
  pose proof (bootstrap_blocked _ _ _ Hd Hf) as Hb.
  unfold load, run_module.
  destruct (bootstrap_chained (directories (bindings source_literals here))
              [here] fs) as [->|(fs' & Hok & _)];
    [by intros u ->%list_elem_of_singleton | apply directories_chained
    | done |].
  by rewrite Hok in Hb.
Qed.

(** C10. The data, video, audio, image, result and model directories and
    the log file of the record are all strictly below [BASE_DIR], which is
    the directory of the module file; and when that directory is there,
    an import that returns has created or changed nothing outside it. *)
Theorem load_paths_below_base here fs c fs' :
  load here fs = Ok (c, fs') ->
  BASE_DIR c = here /\
  (forall d, d ∈ derived_paths c -> descendant_of d (BASE_DIR c)) /\
  (Pathlib.is_dir here fs = true ->
   forall q : Path, ~ descendant_of q (BASE_DIR c) ->
     kind_at (parts q) fs' = kind_at (parts q) fs).
Proof.
  intros [-> Hb]%load_inv. split; [done|]. split.
  { intros d. apply derived_paths_descend. }
  intros Hhere q Hq.
  destruct (bootstrap_chained (directories (bindings source_literals here))
              [here] fs) as [Hr|(fs1 & Hok & Hfr)];
    [by intros u ->%list_elem_of_singleton | apply directories_chained
    | congruence |].
  rewrite Hb in Hok. simplify_eq. apply Hfr.
  intros d Hd Heq. apply Hq.
  assert (q = d) as ->.
  { unfold parts in Heq. by rewrite <- (rev_involutive q), Heq, rev_involutive. }
  by eapply directories_descend.
Qed.

End layout_facts.

(** * [print_config] and the colour lookup *)

Section consumer_facts.
Implicit Types (fs : node) (here : Path) (c : Config).

(** C7. The colour mapping of the record has a ['default'] entry, and
    for every species the mapping does not list, the lookup with
    fallback returns the colour of that entry. *)
Theorem load_color_lookup_falls_back here fs c fs' :
  load here fs = Ok (c, fs') ->
  BBOX_COLORS (literals c) !! "default" = Some (255, 255, 0) /\
  forall species,
    BBOX_COLORS (literals c) !! species = None ->
    Consumer.color_lookup (BBOX_COLORS (literals c)) species
    = Ok (255, 255, 0).
Proof.
  intros [-> _]%load_inv. split; [done|].
  intros species Hs. unfold Consumer.color_lookup. by rewrite Hs.
Qed.

End consumer_facts.

(** * Sample runs *)

(** C1, counterexample. With a YOLO confidence of 1.5 (and the two other
    thresholds out of range as well) the module body runs to its end: no
    error is raised, and the record holds the values as written. *)
Lemma run_module_accepts_wild_thresholds :
  run_module Sample.wild_thresholds Sample.here Sample.fresh
    = Ok (bindings Sample.wild_thresholds Sample.here, Sample.ready) /\
  PyFloat.in_unit_interval (YOLO_CONFIDENCE_THRESHOLD Sample.wild_thresholds) = false /\
  PyFloat.in_unit_interval (YOLO_IOU_THRESHOLD Sample.wild_thresholds) = false /\
  PyFloat.in_unit_interval (AUDIO_CONFIDENCE_THRESHOLD Sample.wild_thresholds) = false.
Proof. by vm_compute. Qed.

(** The thresholds of the record of a fresh import. *)
Lemma load_thresholds_in_unit_interval_sample :
  load Sample.here Sample.fresh = Ok (Sample.config, Sample.ready) /\
  PyFloat.in_unit_interval (YOLO_CONFIDENCE_THRESHOLD (literals Sample.config)) = true /\
  PyFloat.in_unit_interval (YOLO_IOU_THRESHOLD (literals Sample.config)) = true /\
  PyFloat.in_unit_interval (AUDIO_CONFIDENCE_THRESHOLD (literals Sample.config)) = true.
Proof.
  split; [exact load_fresh|].
  exact (proj1 load_thresholds_in_unit_interval Sample.here Sample.fresh
           Sample.config Sample.ready load_fresh).
Defined.



(** C6, counterexample. With [ALERT_MIN_ANIMALS = 50] and
    [ALERT_MAX_ANIMALS = 10] the module body runs to its end and the record
    holds the inverted bounds. *)
Lemma run_module_accepts_inverted_bounds :
  run_module Sample.inverted_bounds Sample.here Sample.fresh
    = Ok (bindings Sample.inverted_bounds Sample.here, Sample.ready) /\
  ALERT_MIN_ANIMALS Sample.inverted_bounds = 50 /\
  ALERT_MAX_ANIMALS Sample.inverted_bounds = 10 /\
  ~ ALERT_MIN_ANIMALS Sample.inverted_bounds <= ALERT_MAX_ANIMALS Sample.inverted_bounds.
Proof. split; [by vm_compute|]. cbn. lia. Qed.

(** The alert bounds of the record of a fresh import. *)
Lemma load_alert_bounds_ordered_sample :
  load Sample.here Sample.fresh = Ok (Sample.config, Sample.ready) /\
  0 <= ALERT_MIN_ANIMALS (literals Sample.config) /\
  ALERT_MIN_ANIMALS (literals Sample.config)
    <= ALERT_MAX_ANIMALS (literals Sample.config) /\
  0 <= ALERT_MAX_ANIMALS (literals Sample.config).
Proof.
  split; [exact load_fresh|].
  exact (proj1 load_alert_bounds_ordered Sample.here Sample.fresh
           Sample.config Sample.ready load_fresh).
Defined.

(** Ratios and sizes of the record of a fresh import. *)
Lemma load_ratios_and_sizes_sample :
  load Sample.here Sample.fresh = Ok (Sample.config, Sample.ready) /\
  (0 <? ALERT_ACTIVITY_DROP (literals Sample.config))%float = true /\
  (1 <? ALERT_ACTIVITY_SPIKE (literals Sample.config))%float = true /\
  0 < NUM_WORKERS (literals Sample.config).
Proof.
  split; [exact load_fresh|].
  destruct (load_ratios_and_sizes Sample.here Sample.fresh Sample.config
              Sample.ready load_fresh)
    as ((Hdrop & _) & (_ & Hspike) & _ & _ & Hworkers).
  done.
Defined.

(** The giraffe is a rare species, and class 23 has its label. *)
Lemma load_rare_species_are_labelled_sample :
  load Sample.here Sample.fresh = Ok (Sample.config, Sample.ready) /\
  "giraffe" ∈ ALERT_RARE_SPECIES (literals Sample.config) /\
  exists class_id,
    ANIMAL_CLASSES (literals Sample.config) !! class_id = Some "giraffe".
Proof.
  split; [exact load_fresh|].
  assert ("giraffe" ∈ ALERT_RARE_SPECIES (literals Sample.config)) as Hin.
  { cbn. do 2 right. left. }
  split; [exact Hin|].
  exact (load_rare_species_are_labelled Sample.here Sample.fresh Sample.config
           Sample.ready load_fresh "giraffe" Hin).
Defined.

(** Two imports on the layout a first import left. *)
Lemma load_twice_on_existing_layout_sample :
  (forall d, d ∈ directories Sample.config ->
             Pathlib.is_dir d Sample.ready = true) /\
  exists c fs1 fs2,
    load Sample.here Sample.ready = Ok (c, fs1) /\
    load Sample.here fs1 = Ok (c, fs2) /\
    fs1 = Sample.ready /\ fs2 = Sample.ready.
Proof.
  assert (forall d, d ∈ directories Sample.config ->
                    Pathlib.is_dir d Sample.ready = true) as Hdirs.
  { intros d Hd. cbn in Hd.
    repeat (apply elem_of_cons in Hd as [-> | Hd]); try by vm_compute.
    by apply elem_of_nil in Hd. }
  split; [exact Hdirs|].
  exact (load_twice_on_existing_layout Sample.here Sample.ready Hdirs).
Defined.

(** An import with a regular file in the place of [data/videos]. *)
Lemma load_blocked_by_file_sample :
  VIDEO_DIR Sample.config ∈ directories Sample.config /\
  Pathlib.is_file (VIDEO_DIR Sample.config) Sample.blocked = true /\
  load Sample.here Sample.blocked = Raise FileExistsError.
Proof.
  assert (VIDEO_DIR Sample.config ∈ directories Sample.config) as Hin.
  { right. left. }
  split; [exact Hin|]. split; [by vm_compute|].
  apply (load_blocked_by_file Sample.here Sample.blocked
           (VIDEO_DIR Sample.config) Hin).
  by vm_compute.
Defined.

(** A fresh import: the log file is below [/srv/eco], and [/tmp], which
    is not below it, is as absent after the import as before. *)
Lemma load_paths_below_base_sample :
  load Sample.here Sample.fresh = Ok (Sample.config, Sample.ready) /\
  descendant_of (LOG_FILE Sample.config) Sample.here /\
  Pathlib.is_dir Sample.here Sample.fresh = true /\
  ~ descendant_of ["tmp"] Sample.here /\
  kind_at (parts ["tmp"]) Sample.ready = kind_at (parts ["tmp"]) Sample.fresh.
Proof.
  split; [exact load_fresh|].
  destruct (load_paths_below_base Sample.here Sample.fresh Sample.config
              Sample.ready load_fresh) as (_ & Hbelow & Hframe).
  assert (Pathlib.is_dir Sample.here Sample.fresh = true) as Hdir
    by (by vm_compute).
  assert (~ descendant_of ["tmp"] Sample.here) as Hout.
  { intros (k & Hk & Heq). apply (f_equal length) in Heq.
    rewrite length_app in Heq. cbn in Heq. lia. }
  split.
  { apply Hbelow. unfold derived_paths. apply elem_of_app. right. left. }
  split; [exact Hdir|]. split; [exact Hout|].
  exact (Hframe Hdir ["tmp"] Hout).
Defined.

(** C4, counterexample. For the record of a fresh import the e-mail
    address, the bot token and the chat id are unset, and none of the ten
    lines [print_config] prints holds the words "not configured". *)
Lemma print_config_no_placeholder :
  load Sample.here Sample.fresh = Ok (Sample.config, Sample.ready) /\
  ALERT_EMAIL (literals Sample.config) = None /\
  TELEGRAM_BOT_TOKEN (literals Sample.config) = None /\
  TELEGRAM_CHAT_ID (literals Sample.config) = None /\
  length (print_config Sample.config) = 10%nat /\
  forallb (fun line => negb (PyStr.contains "not configured" line))
          (print_config Sample.config) = true.
Proof. by vm_compute. Qed.

(** The lookup of a species [BBOX_COLORS] does not list. *)
Lemma load_color_lookup_falls_back_sample :
  load Sample.here Sample.fresh = Ok (Sample.config, Sample.ready) /\
  BBOX_COLORS (literals Sample.config) !! "deer-subspecies-x" = None /\
  Consumer.color_lookup (BBOX_COLORS (literals Sample.config))
    "deer-subspecies-x" = Ok (255, 255, 0).
Proof.
  split; [exact load_fresh|].
  assert (BBOX_COLORS (literals Sample.config) !! "deer-subspecies-x" = None)
    as Hnone by (by vm_compute).
  split; [exact Hnone|].
  exact (proj2 (load_color_lookup_falls_back Sample.here Sample.fresh
                  Sample.config Sample.ready load_fresh)
           "deer-subspecies-x" Hnone).
Defined.

(** * More on the directory bootstrap *)

(** ** Why [os.mkdir] fails *)

Section os_mkdir_outcomes.
Implicit Types (n : node) (ps qs : list string).

(** [EEXIST] is raised only for a path that is there. *)
Lemma os_mkdir_eexist_inv ps n :
  os_mkdir ps n = Raise FileExistsError -> is_Some (resolve ps n).
Proof.
  revert n. induction ps as [|c ps IH]; intros n H; [by eexists|].
  destruct n as [|es]; [done|]. cbn [os_mkdir resolve] in *.
  destruct (es !! c) as [child|].
  - destruct (os_mkdir ps child) as [?|e] eqn:Hm; simplify_eq/=. by apply IH.
  - by destruct ps.
Qed.



(** [ENOENT] is raised only for a path that is not there. *)
Lemma os_mkdir_enoent_inv ps n :
  os_mkdir ps n = Raise FileNotFoundError -> resolve ps n = None.
Proof.
  revert n. induction ps as [|c ps IH]; intros n H; [done|].
  destruct n as [|es]; [done|]. cbn [os_mkdir resolve] in *.
  destruct (es !! c) as [child|]; [|done].
  destruct (os_mkdir ps child) as [?|e] eqn:Hm; simplify_eq/=. by apply IH.
Qed.

(** What a successful [os.mkdir] does to the kind of a path: nothing,
    unless it is the path made, which was absent and is now a directory. *)
Lemma os_mkdir_effect ps qs n n' :
  os_mkdir ps n = Ok n' ->
  kind_at qs n' = kind_at qs n \/
  (qs = ps /\ kind_at qs n = None /\ kind_at qs n' = Some KDir).
Proof.
  intros H. destruct (decide (qs = ps)) as [->|Hne].
  - right. apply os_mkdir_creates in H as [H1 H2]. unfold kind_at.
    by rewrite H1, H2.
  - left. by eapply os_mkdir_frame.
Qed.

End os_mkdir_outcomes.

(** ** [Path.mkdir] with [parents=True], in full *)

Section mkdir_outcomes.
Implicit Types (fs : node) (p q up : Path) (c : string).



Lemma parts_inj (p q : Path) : parts p = parts q -> p = q.
Proof.
  unfold parts. intros H.
  by rewrite <- (rev_involutive p), H, rev_involutive.
Qed.





Lemma mkdir_noparents_effect exist_ok p fs fs' qs :
  Pathlib.mkdir_noparents exist_ok p fs = Ok fs' ->
  kind_at qs fs' = kind_at qs fs \/
  (qs = parts p /\ kind_at qs fs = None /\ kind_at qs fs' = Some KDir).
Proof.
  unfold Pathlib.mkdir_noparents. intros H.
  destruct (os_mkdir (parts p) fs) as [fs2|e] eqn:Hm.
  - simplify_eq. by apply os_mkdir_effect.
  - left. destruct e, (exist_ok && Pathlib.is_dir p fs); by simplify_eq.
Qed.

(** What a [mkdir] that returns has done to the kind of a path: nothing,
    unless the path is [p] or above it and was absent, and then it is a
    directory now. *)
Lemma mkdir_effect exist_ok p fs fs' qs :
  Pathlib.mkdir exist_ok p fs = Ok fs' ->
  kind_at qs fs' = kind_at qs fs \/
  (kind_at qs fs = None /\ kind_at qs fs' = Some KDir /\
   exists q, q `suffix_of` p /\ qs = parts q).
Proof.
  revert exist_ok fs fs'.
  induction p as [|c up IH]; intros exist_ok fs fs'; rewrite mkdir_unfold;
    intros H.
  { cbn [parts rev os_mkdir] in H. left.
    destruct (exist_ok && Pathlib.is_dir [] fs); by simplify_eq. }
  destruct (os_mkdir _ fs) as [fs2|e] eqn:Hm.
  - simplify_eq. destruct (os_mkdir_effect _ qs _ _ Hm) as [?|(-> & ? & ?)];
      [by left|]. right. repeat split; [done..|]. by exists (c :: up).
  - destruct e;
      try (left; destruct (exist_ok && Pathlib.is_dir _ fs); by simplify_eq).
    destruct (Pathlib.mkdir true up fs) as [fs1|] eqn:Hup; [|done].
    cbn [bind] in H.
    destruct (mkdir_noparents_effect _ _ _ _ qs H) as [H2|(-> & H2 & H3)];
      destruct (IH _ _ _ Hup) as [H1|(H1 & H1' & q & Hq & Hqs)].
    + left. congruence.
    + right. rewrite H2. repeat split; [done..|].
      exists q. split; [by apply suffix_cons_r | done].
    + right. rewrite <- H1. repeat split; [done..|]. by exists (c :: up).
    + congruence.
Qed.



(** [mkdir(parents=True)] never raises [FileNotFoundError]: what is
    missing is made. *)
Lemma mkdir_never_enoent exist_ok p fs :
  Pathlib.mkdir exist_ok p fs <> Raise FileNotFoundError.
Proof.
  revert exist_ok fs. induction p as [|c up IH]; intros exist_ok fs;
    rewrite mkdir_unfold.
  { cbn [parts rev os_mkdir]. by destruct (exist_ok && Pathlib.is_dir [] fs). }
  destruct (os_mkdir _ fs) as [fs2|e] eqn:Hm; [done|].
  destruct e; try by destruct (exist_ok && Pathlib.is_dir _ fs).
  destruct (Pathlib.mkdir true up fs) as [fs1|e] eqn:Hup.
  - cbn [bind]. unfold Pathlib.mkdir_noparents.
    destruct (os_mkdir_in_dir (parts up) c fs1 (mkdir_makes_dir _ _ _ Hup))
      as [[fs' H]|H]; change (parts up ++ [c]) with (parts (c :: up)) in H;
      rewrite H; [done|].
    by destruct (exist_ok && Pathlib.is_dir _ fs1).
  - cbn [bind]. intros ?; simplify_eq. by eapply IH.
Qed.


End mkdir_outcomes.

(** ** The loop, on any file system *)

Section bootstrap_outcomes.
Implicit Types (fs : node) (d p q here : Path) (ds known : list Path).

(** What a loop that ends has done to the kind of a path: nothing, unless
    the path is one of the list or above one and was absent, and then it
    is a directory now. *)
Lemma bootstrap_effect ds fs fs' qs :
  bootstrap ds fs = Ok fs' ->
  kind_at qs fs' = kind_at qs fs \/
  (kind_at qs fs = None /\ kind_at qs fs' = Some KDir /\
   exists d q, d ∈ ds /\ q `suffix_of` d /\ qs = parts q).
Proof.
  revert fs. induction ds as [|d ds IH]; intros fs H.
  { left. by simplify_eq/=. }
  cbn [bootstrap] in H.
  destruct (Pathlib.mkdir true d fs) as [fs1|] eqn:Hd; [|done].
  cbn [bind] in H.
  destruct (IH _ H) as [H2|(H2 & H2' & d' & q & Hd' & Hq & Hqs')];
    destruct (mkdir_effect _ _ _ _ qs Hd) as [H1|(H1 & H1' & q1 & Hq1 & Hqs)].
  - left. congruence.
  - right. rewrite H2. repeat split; [done..|].
    exists d, q1. split; [left | done].
  - right. rewrite <- H1. repeat split; [done..|].
    exists d', q. split; [by right | done].
  - congruence.
Qed.

Lemma bootstrap_files_same ds fs fs' q :
  bootstrap ds fs = Ok fs' ->
  Pathlib.is_file q fs' = Pathlib.is_file q fs.
Proof.
  intros H. apply eq_true_iff_eq. rewrite !is_file_kind.
  destruct (bootstrap_effect _ _ _ (parts q) H) as [->|(H1 & H2 & _)];
    [done|]. rewrite H1, H2. naive_solver.
Qed.


End bootstrap_outcomes.

(** ** Importing the module, on any file system *)

Section load_outcomes.
Implicit Types (fs : node) (d q here : Path) (lits : Literals) (c : Config).





End load_outcomes.

(** ** What an import has done, when it returns and when it raises *)

Section load_effects.
Implicit Types (fs : node) (d q p here : Path) (ds : list Path) (c : Config).



(** The two models of [Path.mkdir], of the loop and of the import agree
    on what is returned and on what is raised. *)
Lemma ondisk_mkdir_noparents_returned exist_ok p fs :
  OnDisk.returned (OnDisk.mkdir_noparents exist_ok p fs)
  = Pathlib.mkdir_noparents exist_ok p fs.
Proof.
  unfold Pathlib.mkdir_noparents, OnDisk.mkdir_noparents.
  destruct (os_mkdir (parts p) fs) as [?|[]]; try done;
    by destruct (exist_ok && Pathlib.is_dir p fs).
Qed.

Lemma ondisk_mkdir_unfold exist_ok p fs :
  OnDisk.mkdir exist_ok p fs =
  match os_mkdir (parts p) fs with
  | Ok fs' => (fs', Ok ())
  | Raise FileNotFoundError =>
      match p with
      | [] => (fs, Raise FileNotFoundError)
      | _ :: up =>
          match OnDisk.mkdir true up fs with
          | (fs1, Ok _) => OnDisk.mkdir_noparents exist_ok p fs1
          | (fs1, Raise e) => (fs1, Raise e)
          end
      end
  | Raise e =>
      if exist_ok && Pathlib.is_dir p fs then (fs, Ok ()) else (fs, Raise e)
  end.
Proof. by destruct p. Qed.

Lemma ondisk_mkdir_returned exist_ok p fs :
  OnDisk.returned (OnDisk.mkdir exist_ok p fs) = Pathlib.mkdir exist_ok p fs.
Proof.
  revert exist_ok fs. induction p as [|c up IH]; intros exist_ok fs;
    rewrite mkdir_unfold, ondisk_mkdir_unfold.
  { cbn [parts rev os_mkdir]. by destruct (exist_ok && Pathlib.is_dir [] fs). }
  destruct (os_mkdir _ fs) as [?|[]]; try done;
    try by destruct (exist_ok && Pathlib.is_dir _ fs).
  rewrite <- IH. destruct (OnDisk.mkdir true up fs) as [fs1 [[]|e]]; cbn;
    [apply ondisk_mkdir_noparents_returned | done].
Qed.

Lemma ondisk_bootstrap_returned ds fs :
  OnDisk.returned (OnDisk.bootstrap ds fs) = bootstrap ds fs.
Proof.
  revert fs. induction ds as [|d ds IH]; intros fs; [done|].
  cbn [bootstrap OnDisk.bootstrap]. rewrite <- ondisk_mkdir_returned.
  destruct (OnDisk.mkdir true d fs) as [fs1 [[]|e]]; cbn; [apply IH | done].
Qed.

Lemma ondisk_load_forget here fs :
  OnDisk.forget (OnDisk.load here fs) = load here fs.
Proof.
  unfold load, run_module, OnDisk.load.
  rewrite <- ondisk_bootstrap_returned.
  by destruct (OnDisk.bootstrap _ fs) as [fs1 [[]|e]].
Qed.

(** A [Path.mkdir] that raises has changed nothing: it raises before it
    makes anything. *)
Lemma ondisk_mkdir_raise exist_ok p fs fs' e :
  OnDisk.mkdir exist_ok p fs = (fs', Raise e) -> fs' = fs.
Proof.
  revert exist_ok fs fs' e. induction p as [|c up IH];
    intros exist_ok fs fs' e; rewrite ondisk_mkdir_unfold; intros H.
  { cbn [parts rev os_mkdir] in H.
    destruct (exist_ok && Pathlib.is_dir [] fs); by simplify_eq. }
  destruct (os_mkdir _ fs) as [?|[]] eqn:Hm; try done;
    try (destruct (exist_ok && Pathlib.is_dir _ fs); by simplify_eq).
  destruct (OnDisk.mkdir true up fs) as [fs1 [[]|e1]] eqn:Hup.
  - exfalso.
    pose proof (ondisk_mkdir_returned true up fs) as Hr.
    rewrite Hup in Hr. cbn in Hr. symmetry in Hr.
    assert (kind_at (parts (c :: up)) fs1 = None) as Hnone.
    { apply os_mkdir_enoent_inv in Hm.
      destruct (mkdir_effect _ _ _ _ (parts (c :: up)) Hr)
        as [->|(_ & _ & q & Hq & Hqs)].
      - unfold kind_at. by rewrite Hm.
      - apply parts_inj in Hqs. subst q.
        apply suffix_length in Hq. cbn in Hq. lia. }
    unfold OnDisk.mkdir_noparents in H.
    destruct (os_mkdir_in_dir (parts up) c fs1 (mkdir_makes_dir _ _ _ Hr))
      as [[n' Hok]|Hex]; change (parts up ++ [c]) with (parts (c :: up)) in *.
    + by rewrite Hok in H.
    + apply os_mkdir_eexist_inv in Hex as [x Hx]. unfold kind_at in Hnone.
      by rewrite Hx in Hnone.
  - simplify_eq. by eapply IH.
Qed.

Lemma ondisk_bootstrap_raise ds fs fs' e :
  OnDisk.bootstrap ds fs = (fs', Raise e) ->
  exists made failing rest,
    ds = made ++ failing :: rest /\
    bootstrap made fs = Ok fs' /\
    Pathlib.mkdir true failing fs' = Raise e.
Proof.
  revert fs. induction ds as [|d ds IH]; intros fs H; [done|].
  cbn [OnDisk.bootstrap] in H.
  pose proof (ondisk_mkdir_returned true d fs) as Hd.
  destruct (OnDisk.mkdir true d fs) as [fs1 [[]|e1]] eqn:Hm; cbn in Hd.
  - destruct (IH _ H) as (made & failing & rest & -> & Hmade & Hfail).
    exists (d :: made), failing, rest. split; [done|]. split; [|done].
    cbn [bootstrap]. by rewrite <- Hd.
  - simplify_eq. apply ondisk_mkdir_raise in Hm as ->.
    by exists [], d, ds.
Qed.

(** X5. An import that raises is not undone. The file system it leaves
    is the one its loop had built when it reached the path it could not
    make: the directories listed before that path are there, and those
    listed after it have not been tried. *)
Theorem load_not_rolled_back here fs fs' e :
  OnDisk.load here fs = (fs', Raise e) ->
  exists made failing rest,
    directories (bindings source_literals here) = made ++ failing :: rest /\
    bootstrap made fs = Ok fs' /\
    (forall d, d ∈ made -> Pathlib.is_dir d fs' = true) /\
    Pathlib.mkdir true failing fs' = Raise e.
Proof.
  unfold OnDisk.load. intros H.
  destruct (OnDisk.bootstrap _ fs) as [fs1 [[]|e1]] eqn:Hb; simplify_eq.
  destruct (ondisk_bootstrap_raise _ _ _ _ Hb)
    as (made & failing & rest & Hds & Hmade & Hfail).
  exists made, failing, rest. repeat split; [done..| |done].
  intros d Hd. by eapply bootstrap_makes_dirs.
Qed.

End load_effects.

(** * What [print_config] shows of the paths *)

Section print_facts.
Implicit Types (p here : Path) (name : string).





End print_facts.

(** * The tables of the record *)

Section table_facts.
Implicit Types (fs : node) (here : Path) (c : Config).

(** X7. No two classes of [ANIMAL_CLASSES] share a label, so that a label
    names its class. *)
Theorem animal_labels_distinct here fs c fs' :
  load here fs = Ok (c, fs') ->
  forall i j label,
    ANIMAL_CLASSES (literals c) !! i = Some label ->
    ANIMAL_CLASSES (literals c) !! j = Some label ->
    i = j.
Proof.
  intros [-> _]%load_inv i j label Hi Hj.
  cbn [literals bindings ANIMAL_CLASSES source_literals] in Hi, Hj.
  repeat (apply lookup_insert_Some in Hi as [[<- <-]|[_ Hi]]);
    [..| by rewrite lookup_empty in Hi];
    repeat (apply lookup_insert_Some in Hj as [[<- Hj]|[_ Hj]]);
    first [ reflexivity | discriminate Hj | by rewrite lookup_empty in Hj ].
Qed.

(** X8. Every colour of [BBOX_COLORS] is a triple of bytes: each of its
    three components lies between 0 and 255. *)
Theorem bbox_colors_are_bytes here fs c fs' :
  load here fs = Ok (c, fs') ->
  forall species r g b,
    BBOX_COLORS (literals c) !! species = Some (r, g, b) ->
    (0 <= r <= 255) /\ (0 <= g <= 255) /\ (0 <= b <= 255).
Proof.
  intros [-> _]%load_inv species r g b H.
  cbn [literals bindings BBOX_COLORS source_literals] in H.
  repeat (apply lookup_insert_Some in H as [[_ H]|[_ H]]; [simplify_eq; lia|]).
  by rewrite lookup_empty in H.
Qed.

End table_facts.

(** * More sample runs *)

(** With [/srv] a regular file the import stops at its first [mkdir]. *)
Example load_srv_is_file :
  OnDisk.load Sample.here Aftermath.srv_is_file
  = (Aftermath.srv_is_file, Raise NotADirectoryError).
Proof. vm_compute. reflexivity. Qed.


(** A second import after a fresh one. *)
Lemma load_idempotent_sample :
  load Sample.here Sample.fresh = Ok (Sample.config, Sample.ready) /\
  load Sample.here Sample.ready = Ok (Sample.config, Sample.ready).
Proof.
  split; [exact load_fresh|].
  exact (load_idempotent Sample.here Sample.fresh Sample.config Sample.ready
           load_fresh).
Defined.

(** With a regular file in the place of [models], the import fails after
    it has made [data] and the four directories in it. *)
Lemma load_not_rolled_back_sample :
  OnDisk.load Sample.here Aftermath.models_is_file
    = (Aftermath.half_made, Raise FileExistsError) /\
  exists made failing rest,
    directories Sample.config = made ++ failing :: rest /\
    bootstrap made Aftermath.models_is_file = Ok Aftermath.half_made /\
    (forall d, d ∈ made -> Pathlib.is_dir d Aftermath.half_made = true) /\
    Pathlib.mkdir true failing Aftermath.half_made = Raise FileExistsError.
Proof.
  split; [exact load_models_is_file|].
  exact (load_not_rolled_back Sample.here Aftermath.models_is_file
           Aftermath.half_made FileExistsError load_models_is_file).
Defined.


(** The label of class 21 is the label of no other class. *)
Lemma animal_labels_distinct_sample :
  load Sample.here Sample.fresh = Ok (Sample.config, Sample.ready) /\
  ANIMAL_CLASSES (literals Sample.config) !! 21 = Some "bear" /\
  forall j, ANIMAL_CLASSES (literals Sample.config) !! j = Some "bear" ->
            21 = j.
Proof.
  split; [exact load_fresh|].
  assert (ANIMAL_CLASSES (literals Sample.config) !! 21 = Some "bear")
    as Hbear by (by vm_compute).
  split; [exact Hbear|].
  intros j. exact (animal_labels_distinct Sample.here Sample.fresh
                     Sample.config Sample.ready load_fresh 21 j "bear" Hbear).
Defined.

(** The colour of the bear. *)
Lemma bbox_colors_are_bytes_sample :
  load Sample.here Sample.fresh = Ok (Sample.config, Sample.ready) /\
  BBOX_COLORS (literals Sample.config) !! "bear" = Some (255, 0, 0) /\
  (0 <= 255 <= 255) /\ (0 <= 0 <= 255) /\ (0 <= 0 <= 255).
Proof.
  split; [exact load_fresh|].
  assert (BBOX_COLORS (literals Sample.config) !! "bear" = Some (255, 0, 0))
    as Hbear by (by vm_compute).
  split; [exact Hbear|].
  exact (bbox_colors_are_bytes Sample.here Sample.fresh Sample.config
           Sample.ready load_fresh "bear" 255 0 0 Hbear).
Defined.

(** * [print_config] and standard output *)

Section stdout_facts.
Implicit Types (out : Stdout.stream) (w lines : list string) (c : Config).

(** A run of [print] calls none of which is refused writes every line. *)
Lemma print_lines_ok out w lines :
  (forall i line, lines !! i = Some line ->
                  Stdout.refuses out (w ++ take i lines) line = None) ->
  Stdout.print_lines out w lines = (w ++ lines, Ok ()).
Proof.
  revert w. induction lines as [|l lines IH]; intros w H.
  { by rewrite app_nil_r. }
  cbn [Stdout.print_lines].
  pose proof (H 0%nat l eq_refl) as H0. cbn [take] in H0.
  rewrite app_nil_r in H0. rewrite H0, IH; [by rewrite <- app_assoc|].
  intros i line Hi. rewrite <- app_assoc. by apply (H (S i)).
Qed.

(** A run that raises stops at the line refused, with the lines before
    it written, and raises what the stream raised. *)
Lemma print_lines_raise out w lines w' e :
  Stdout.print_lines out w lines = (w', Raise e) ->
  exists i line,
    lines !! i = Some line /\ w' = w ++ take i lines /\
    Stdout.refuses out w' line = Some e.
Proof.
  revert w. induction lines as [|l lines IH]; intros w H; [done|].
  cbn [Stdout.print_lines] in H.
  destruct (Stdout.refuses out w l) as [e'|] eqn:Hl.
  - simplify_eq. exists 0%nat, l. by rewrite app_nil_r.
  - destruct (IH _ H) as (i & line & Hi & -> & He).
    exists (S i), line. split; [done|]. split; [|done].
    by rewrite <- app_assoc.
Qed.

(** C4 (as amended). For the record an import yields, the text of
    [print_config] is ten lines: a rule, the project name and version, a
    rule, the base and data directories, the YOLO model, the two
    confidence thresholds, the GPU flag and a rule. The e-mail address,
    the bot token and the chat id are not printed at all, set or unset:
    the text, and what the call does to the stream, are the same whatever
    they hold. The call returns, with the ten lines written, when the
    stream takes each of them; it raises only what the stream raises on a
    line, and then the lines before that one are written. *)
Theorem print_config_output here fs c fs' :
  load here fs = Ok (c, fs') ->
  print_config c =
    [ "============================================================";
      "Ecosystem Monitoring System v1.0.0";
      "============================================================";
      "Базовая директория: " +:+ PurePath.str here;
      "Директория данных: " +:+ PurePath.str (here // "data");
      "Модель YOLO: yolov8n.pt";
      "Порог уверенности YOLO: 0.25";
      "Порог уверенности аудио: 0.3";
      "Использование GPU: True";
      "============================================================" ] /\
  (forall email token chat,
     print_config (map_literals (with_channels email token chat) c) =
     print_config c) /\
  (forall out email token chat,
     Stdout.print_config out (map_literals (with_channels email token chat) c)
     = Stdout.print_config out c) /\
  (forall out,
     (forall i line,
        print_config c !! i = Some line ->
        Stdout.refuses out (take i (print_config c)) line = None) ->
     Stdout.print_config out c = (print_config c, Ok ())) /\
  (forall out written e,
     Stdout.print_config out c = (written, Raise e) ->
     exists i line,
       print_config c !! i = Some line /\
       written = take i (print_config c) /\
       Stdout.refuses out written line = Some e).
Proof.
  intros [-> _]%load_inv.
  assert (forall email token chat,
            print_config (map_literals (with_channels email token chat)
                            (bindings source_literals here))
            = print_config (bindings source_literals here)) as Hsame by done.
  split; [|split; [exact Hsame|split; [|split]]].
  - unfold print_config, bindings.
    cbn [literals BASE_DIR DATA_DIR PROJECT_NAME VERSION YOLO_MODEL
         YOLO_CONFIDENCE_THRESHOLD AUDIO_CONFIDENCE_THRESHOLD USE_GPU
         source_literals].
    repeat f_equal; by vm_compute.
  - intros out email token chat. unfold Stdout.print_config.
    by rewrite Hsame.
  - intros out H. unfold Stdout.print_config.
    rewrite print_lines_ok; [reflexivity|]. exact H.
  - intros out written e H. unfold Stdout.print_config in H.
    apply print_lines_raise in H. exact H.
Qed.

End stdout_facts.

(** The output for the record of a fresh import, with the notification
    channels unset and set, on a stream that encodes to UTF-8. *)
Lemma print_config_output_sample :
  load Sample.here Sample.fresh = Ok (Sample.config, Sample.ready) /\
  print_config Sample.config !! 3%nat = Some "Базовая директория: /srv/eco" /\
  print_config Sample.notified = print_config Sample.config /\
  Stdout.print_config Stdout.utf8_strict Sample.notified
  = (print_config Sample.config, Ok ()).
Proof.
  split; [exact load_fresh|].
  destruct (print_config_output Sample.here Sample.fresh Sample.config
              Sample.ready load_fresh) as (Hout & Hsame & Hsame' & Hok & _).
  split; [by rewrite Hout|]. split; [apply Hsame|].
  unfold Sample.notified. rewrite Hsame'. apply Hok.
  intros i line Hi.
  do 10 (destruct i as [|i];
         [vm_compute in Hi; injection Hi as <-; vm_compute; reflexivity|]).
  vm_compute in Hi. discriminate Hi.
Defined.
